(** * find_x32_ip.py: discovery of an X32 mixer by UDP broadcast

    A shallow embedding of [src/find_x32_ip.py].  The script is a straight
    line of socket calls wrapped in one [try]/[except]/[finally]; its
    behaviour is fixed by what each socket call does (returns or raises),
    so a run is a function of an environment [env] that answers the calls.

    The model keeps what the process boundary shows: the text written to
    standard output and standard error, the exit status, the state of the
    socket object, and the ordered log of the calls that were made.

    Writing to the two standard streams and [close] are taken to succeed,
    and no signal interrupts the run: the exceptions in play are those of
    the socket calls and the [SystemExit] of [sys.exit]. *)

From Stdlib Require Import String Ascii List ZArith Bool Lia.
From Stdlib Require Import Init.Byte.
Import ListNotations.
Local Open Scope string_scope.
Local Open Scope Z_scope.

(** ** Data *)

(** A [bytes] object. *)
Definition bytes := list byte.

(** An [(ip, port)] pair as the socket module gives it. *)
Definition address := (string * Z)%type.

Inductive family := AF_INET.
Inductive socktype := SOCK_DGRAM | SOCK_STREAM.
Inductive socklevel := SOL_SOCKET.
Inductive sockopt := SO_BROADCAST | SO_REUSEADDR.

(** What a socket call can raise: [socket.timeout], or another [OSError]
    (class name as the interpreter shows it, and [str(e)]). *)
Inductive sock_error :=
| Timeout (msg : string)
| Failure (name msg : string).

(** The exceptions that travel through [find_x32].  [socket.timeout] and the
    other socket errors are subclasses of [Exception]; [SystemExit], which
    [sys.exit] raises, derives from [BaseException] only. *)
Inductive pyexc :=
| SocketTimeout (msg : string)
| OSError (name msg : string)
| SystemExit (code : Z).

Definition exc_of (e : sock_error) : pyexc :=
  match e with
  | Timeout m => SocketTimeout m
  | Failure n m => OSError n m
  end.

(** [isinstance(e, socket.timeout)] *)
Definition is_socket_timeout (e : pyexc) : bool :=
  match e with
  | SocketTimeout _ => true
  | _ => false
  end.

(** [isinstance(e, Exception)] *)
Definition is_Exception (e : pyexc) : bool :=
  match e with
  | SocketTimeout _ | OSError _ _ => true
  | SystemExit _ => false
  end.

(** [str(e)] *)
Definition exc_str (e : pyexc) : string :=
  match e with
  | SocketTimeout m => m
  | OSError _ m => m
  | SystemExit _ => ""
  end.

(** The class name on the last line of a traceback. *)
Definition exc_name (e : pyexc) : string :=
  match e with
  | SocketTimeout _ => "socket.timeout"
  | OSError n _ => n
  | SystemExit _ => "SystemExit"
  end.

(** The socket object: its broadcast option, its timeout (milliseconds;
    [None] is blocking mode) and whether [close] was called. *)
Record socket_obj := mkSock {
  so_family : family;
  so_type : socktype;
  so_broadcast : bool;
  so_timeout : option Z;
  so_closed : bool
}.

Inductive stream := Stdout | Stderr.

(** The log of a run: each call with its arguments and its result. *)
Inductive event :=
| EvSocket (f : family) (t : socktype) (r : option sock_error)
| EvSetsockopt (l : socklevel) (o : sockopt) (v : Z) (r : option sock_error)
| EvSettimeout (ms : Z) (r : option sock_error)
| EvSendto (payload : bytes) (dest : address) (r : option sock_error)
| EvRecvfrom (bufsize : Z) (r : sock_error + bytes * address)
| EvPrint (s : stream) (text : string)
| EvExit (code : Z)
| EvClose.

(** [w_seen] keeps, for each entry of [w_trace], the socket object as it was
    when that call was made. *)
Record world := mkWorld {
  w_sock : option socket_obj;
  w_stdout : string;
  w_stderr : string;
  w_trace : list event;
  w_seen : list (option socket_obj)
}.

Definition init_world : world := mkWorld None "" "" [] [].

(** The environment of one run: the answer to each socket call, and the
    stack-frame lines the interpreter would print in a traceback (they hold
    the path of the script, which the program does not fix). *)
Record env := mkEnv {
  on_socket : option sock_error;
  on_setsockopt : option sock_error;
  on_settimeout : option sock_error;
  on_sendto : option sock_error;
  on_recvfrom : sock_error + bytes * address;
  tb_frames : string
}.

(** ** A state monad in which a raised exception keeps the state *)

Inductive result (A : Type) :=
| Ret (a : A)
| Raise (e : pyexc).
Arguments Ret {A} a.
Arguments Raise {A} e.

Definition M (A : Type) := world -> result A * world.

Definition ret {A} (a : A) : M A := fun w => (Ret a, w).
Definition raise {A} (e : pyexc) : M A := fun w => (Raise e, w).
Definition bind {A B} (m : M A) (k : A -> M B) : M B :=
  fun w =>
    match m w with
    | (Ret a, w1) => k a w1
    | (Raise e, w1) => (Raise e, w1)
    end.

Declare Scope py_scope.
Delimit Scope py_scope with py.
Notation "x <- m ;; k" := (bind m (fun x => k))
  (at level 61, m at next level, right associativity) : py_scope.
Notation "m ;; k" := (bind m (fun _ => k))
  (at level 61, right associativity) : py_scope.
Local Open Scope py_scope.

Definition log (ev : event) : M unit :=
  fun w => (Ret tt, mkWorld (w_sock w) (w_stdout w) (w_stderr w)
                            (w_trace w ++ [ev]) (w_seen w ++ [w_sock w])).

Definition set_sock (s : option socket_obj) : M unit :=
  fun w => (Ret tt, mkWorld s (w_stdout w) (w_stderr w) (w_trace w) (w_seen w)).

Definition get_sock : M (option socket_obj) :=
  fun w => (Ret (w_sock w), w).

Definition newline : string := String "010"%char EmptyString.

Definition write (s : stream) (text : string) : M unit :=
  fun w =>
    match s with
    | Stdout => (Ret tt, mkWorld (w_sock w) (w_stdout w ++ text) (w_stderr w)
                                 (w_trace w) (w_seen w))
    | Stderr => (Ret tt, mkWorld (w_sock w) (w_stdout w) (w_stderr w ++ text)
                                 (w_trace w) (w_seen w))
    end.

(** [print(text, file=s)]: the text and a newline. *)
Definition print (s : stream) (text : string) : M unit :=
  log (EvPrint s text) ;; write s (text ++ newline).

(** [sys.exit(code)] *)
Definition sys_exit {A} (code : Z) : M A :=
  log (EvExit code) ;; raise (SystemExit code).

(** A [try] statement: [except] clauses are tried in order, the first whose
    class matches runs; the [finally] block runs on every way out, and the
    pending exception (of the body or of a handler) goes on after it. *)
Definition handler := ((pyexc -> bool) * (pyexc -> M unit))%type.

Fixpoint dispatch (hs : list handler) (e : pyexc) : M unit :=
  match hs with
  | [] => raise e
  | (matches, h) :: hs' => if matches e then h e else dispatch hs' e
  end.

Definition try_except_finally (body : M unit) (hs : list handler) (fin : M unit) : M unit :=
  fun w =>
    let '(r1, w1) := body w in
    let '(r2, w2) := match r1 with
                     | Ret _ => (r1, w1)
                     | Raise e => dispatch hs e w1
                     end in
    let '(r3, w3) := fin w2 in
    match r3 with
    | Raise e => (Raise e, w3)
    | Ret _ => (r2, w3)
    end.

(** ** The socket calls *)

Section Run.

Variable E : env.

Definition answer (r : option sock_error) : M unit :=
  match r with
  | None => ret tt
  | Some e => raise (exc_of e)
  end.

(** [socket.socket(f, t)] *)
Definition socket_socket (f : family) (t : socktype) : M unit :=
  log (EvSocket f t (on_socket E)) ;;
  answer (on_socket E) ;;
  set_sock (Some (mkSock f t false None false)).

Definition update_sock (f : socket_obj -> socket_obj) : M unit :=
  s <- get_sock ;;
  set_sock (option_map f s).

(** [sock.setsockopt(l, o, v)] *)
Definition setsockopt (l : socklevel) (o : sockopt) (v : Z) : M unit :=
  log (EvSetsockopt l o v (on_setsockopt E)) ;;
  answer (on_setsockopt E) ;;
  match o with
  | SO_BROADCAST =>
      update_sock (fun s => mkSock (so_family s) (so_type s) (negb (v =? 0))
                                   (so_timeout s) (so_closed s))
  | SO_REUSEADDR => ret tt
  end.

(** [sock.settimeout(t)], [t] in milliseconds *)
Definition settimeout (ms : Z) : M unit :=
  log (EvSettimeout ms (on_settimeout E)) ;;
  answer (on_settimeout E) ;;
  update_sock (fun s => mkSock (so_family s) (so_type s) (so_broadcast s)
                               (Some ms) (so_closed s)).

(** [sock.sendto(payload, dest)] *)
Definition sendto (payload : bytes) (dest : address) : M nat :=
  log (EvSendto payload dest (on_sendto E)) ;;
  answer (on_sendto E) ;;
  ret (length payload).

(** [sock.recvfrom(bufsize)]: the call returns what the environment answers,
    the bytes the system hands over for a buffer of [bufsize] and the sender,
    or raises.  What a system does with a datagram longer than the buffer
    (cut it, or refuse it with an error) is part of that answer. *)
Definition recvfrom (bufsize : Z) : M (bytes * address) :=
  match on_recvfrom E with
  | inl e => log (EvRecvfrom bufsize (inl e)) ;; raise (exc_of e)
  | inr (data, sender) =>
      log (EvRecvfrom bufsize (inr (data, sender))) ;; ret (data, sender)
  end.

(** [sock.close()] *)
Definition close : M unit :=
  log EvClose ;;
  update_sock (fun s => mkSock (so_family s) (so_type s) (so_broadcast s)
                               (so_timeout s) true).

(** ** The program *)

(** Truth value of a [bytes] object. *)
Definition truthy (data : bytes) : bool :=
  match data with
  | [] => false
  | _ :: _ => true
  end.

(** OSC /info packet *)
Definition packet : bytes :=
  [x2f; x69; x6e; x66; x6f; x00; x00; x00; x2c; x00; x00; x00].

Definition broadcast_address : address := ("255.255.255.255", 10023).

Definition find_x32 : M unit :=
  socket_socket AF_INET SOCK_DGRAM ;;
  setsockopt SOL_SOCKET SO_BROADCAST 1 ;;
  settimeout 2000 ;;
  try_except_finally
    (sendto packet broadcast_address ;;
     r <- recvfrom 1024 ;;
     let '(data, addr) := r in
     if truthy data then
       print Stdout (fst addr) ;;
       sys_exit 0
     else ret tt)
    [ (is_socket_timeout, fun _ => sys_exit 1);
      (is_Exception, fun e =>
         print Stderr ("An error occurred: " ++ exc_str e) ;;
         sys_exit 1) ]
    close.

(** ** The interpreter around it *)

(** What the interpreter writes for an exception nobody caught. *)
Definition traceback (e : pyexc) : string :=
  "Traceback (most recent call last):" ++ newline ++
  tb_frames E ++
  exc_name e ++ ": " ++ exc_str e ++ newline.

Record outcome := mkOutcome {
  stdout : string;
  stderr : string;
  exit_status : Z;
  trace : list event;
  sock : option socket_obj
}.

(** [if __name__ == '__main__': find_x32()], then the end of the process:
    status 0 when the script runs off its end, the code of a [SystemExit],
    a traceback and status 1 for any other exception. *)
Definition run : outcome :=
  match find_x32 init_world with
  | (Ret _, w) => mkOutcome (w_stdout w) (w_stderr w) 0 (w_trace w) (w_sock w)
  | (Raise (SystemExit c), w) => mkOutcome (w_stdout w) (w_stderr w) c (w_trace w) (w_sock w)
  | (Raise e, w) =>
      mkOutcome (w_stdout w) (w_stderr w ++ traceback e) 1 (w_trace w) (w_sock w)
  end.

End Run.


(** ** Reading a run *)

(** The run received a datagram: [recvfrom] returned [data] from [sender]. *)
Definition received (E : env) (data : bytes) (sender : address) : Prop :=
  In (EvRecvfrom 1024 (inr (data, sender))) (trace (run E)).

(** The wait for a reply ended with [socket.timeout]. *)
Definition timed_out (E : env) (msg : string) : Prop :=
  In (EvRecvfrom 1024 (inl (Timeout msg))) (trace (run E)).

(** [close] was called on the socket the run created. *)
Definition closed (o : outcome) : bool :=
  match sock o with
  | Some s => so_closed s
  | None => false
  end.

(** The datagrams handed to [sendto], in order. *)
Fixpoint sends (t : list event) : list (bytes * address) :=
  match t with
  | [] => []
  | EvSendto p d _ :: t' => (p, d) :: sends t'
  | _ :: t' => sends t'
  end.

(** Number of line ends in a text. *)
Fixpoint count_lines (s : string) : nat :=
  match s with
  | EmptyString => 0
  | String c s' =>
      if Ascii.eqb c "010"%char then S (count_lines s') else count_lines s'
  end.

(** The endpoint was opened and configured without error. *)
Definition setup_ok (E : env) : Prop :=
  on_socket E = None /\ on_setsockopt E = None /\ on_settimeout E = None.

(** The events every run with a working endpoint starts with. *)
Definition prologue : list event :=
  [ EvSocket AF_INET SOCK_DGRAM None;
    EvSetsockopt SOL_SOCKET SO_BROADCAST 1 None;
    EvSettimeout 2000 None ].

Definition ready_sock (is_closed : bool) : socket_obj :=
  mkSock AF_INET SOCK_DGRAM true (Some 2000) is_closed.

(** Environments used as concrete inputs. *)
Definition mixer : address := ("192.168.1.50", 10023).

Definition env_reply (payload : bytes) (sender : address) : env :=
  mkEnv None None None None (inr (payload, sender)) "".

Definition env_silence : env :=
  mkEnv None None None None (inl (Timeout "timed out")) "".

Definition env_broadcast_denied (frames : string) : env :=
  mkEnv None (Some (Failure "PermissionError" "[Errno 1] Operation not permitted"))
        None None (inl (Timeout "timed out")) frames.

Definition env_no_socket : env :=
  mkEnv (Some (Failure "OSError" "[Errno 24] Too many open files"))
        None None None (inl (Timeout "timed out")) "".

Definition env_unreachable : env :=
  mkEnv None None None (Some (Failure "OSError" "[Errno 101] Network is unreachable"))
        (inl (Timeout "timed out")) "".

(** The first error met while opening and configuring the endpoint. *)
Definition setup_error (E : env) : option sock_error :=
  match on_socket E, on_setsockopt E, on_settimeout E with
  | Some e, _, _ => Some e
  | None, Some e, _ => Some e
  | None, None, r => r
  end.

(** The calls made up to that error, and the socket object left behind. *)
Definition setup_trace (E : env) : list event :=
  EvSocket AF_INET SOCK_DGRAM (on_socket E) ::
  match on_socket E with
  | Some _ => []
  | None =>
      EvSetsockopt SOL_SOCKET SO_BROADCAST 1 (on_setsockopt E) ::
      match on_setsockopt E with
      | Some _ => []
      | None => [EvSettimeout 2000 (on_settimeout E)]
      end
  end.

Definition setup_sock (E : env) : option socket_obj :=
  match on_socket E, on_setsockopt E with
  | Some _, _ => None
  | None, Some _ => Some (mkSock AF_INET SOCK_DGRAM false None false)
  | None, None => Some (mkSock AF_INET SOCK_DGRAM true None false)
  end.

(** The error raised inside the [try] block, if any. *)
Definition try_error (E : env) : option sock_error :=
  match on_sendto E, on_recvfrom E with
  | Some e, _ => Some e
  | None, inl e => Some e
  | None, inr _ => None
  end.

(** The calls of the [try] block up to that error. *)
Definition attempt (E : env) : list event :=
  EvSendto packet broadcast_address (on_sendto E) ::
  match on_sendto E, on_recvfrom E with
  | None, inl e => [EvRecvfrom 1024 (inl e)]
  | _, _ => []
  end.

(** What the two [except] clauses write and log for an error. *)
Definition report (e : sock_error) : string :=
  match e with
  | Timeout _ => ""
  | Failure _ m => "An error occurred: " ++ m ++ newline
  end.

Definition report_events (e : sock_error) : list event :=
  match e with
  | Timeout _ => []
  | Failure _ m => [EvPrint Stderr ("An error occurred: " ++ m)]
  end.

(** Every environment is in one of three situations. *)
Inductive situation (E : env) : Prop :=
| SetupFailed (e : sock_error) (Herr : setup_error E = Some e)
| CallFailed (e : sock_error) (Hok : setup_ok E) (Herr : try_error E = Some e)
| Replied (payload : bytes) (sender : address)
    (Hok : setup_ok E) (Hsent : on_sendto E = None)
    (Hrecv : on_recvfrom E = inr (payload, sender)).

Definition is_send (ev : event) : bool :=
  match ev with
  | EvSendto _ _ _ => true
  | _ => false
  end.

(** The call that turns the broadcast option on, as the log shows it when it
    succeeded. *)
Definition broadcast_enabled : event :=
  EvSetsockopt SOL_SOCKET SO_BROADCAST 1 None.

(** ** Reading the log *)

Definition is_recv (ev : event) : bool :=
  match ev with
  | EvRecvfrom _ _ => true
  | _ => false
  end.

Definition is_close (ev : event) : bool :=
  match ev with
  | EvClose => true
  | _ => false
  end.

Definition is_print (ev : event) : bool :=
  match ev with
  | EvPrint _ _ => true
  | _ => false
  end.

(** The calls that put a datagram on the network or wait for one. *)
Definition is_traffic (ev : event) : bool := is_send ev || is_recv ev.

(** How many events of a log satisfy [p]. *)
Definition count_events (p : event -> bool) (t : list event) : nat :=
  length (filter p t).

(** The call that bounds the wait, as the log shows it when it succeeded. *)
Definition timeout_set : event := EvSettimeout 2000 None.

(** The log of a run, each call paired with the socket object it was made
    on ([None] before the socket exists). *)
Definition history (E : env) : list (event * option socket_obj) :=
  let w := snd (find_x32 E init_world) in
  combine (w_trace w) (w_seen w).

(** The socket object exists, is not closed, and has the broadcast option on
    and the timeout of 2 seconds. *)
Definition is_ready (s : option socket_obj) : bool :=
  match s with
  | Some so =>
      so_broadcast so && negb (so_closed so) &&
      match so_timeout so with
      | Some ms => ms =? 2000
      | None => false
      end
  | None => false
  end.

(** An entry of the history that is a [sendto] or a [recvfrom] was made on
    such a socket. *)
Definition traffic_ready (h : event * option socket_obj) : bool :=
  implb (is_traffic (fst h)) (is_ready (snd h)).

(** [close], when the log has it, is the last event. *)
Fixpoint close_only_last (t : list event) : bool :=
  match t with
  | [] => true
  | EvClose :: t' => match t' with [] => true | _ :: _ => false end
  | _ :: t' => close_only_last t'
  end.

(** More concrete inputs. *)
Definition env_send_stuck : env :=
  mkEnv None None None (Some (Timeout "timed out"))
        (inr (packet, mixer)) "".

Definition env_timeout_refused : env :=
  mkEnv None None (Some (Failure "OSError" "[Errno 9] Bad file descriptor"))
        None (inr (packet, mixer)) "".

(** ** The run, case by case *)

Ltac unfold_run :=
  cbv [run find_x32 socket_socket setsockopt settimeout sendto recvfrom close
       try_except_finally dispatch print sys_exit write log answer update_sock
       set_sock get_sock bind ret raise init_world exc_of is_socket_timeout
       is_Exception exc_str
       on_socket on_setsockopt on_settimeout on_sendto on_recvfrom
       w_sock w_stdout w_stderr w_trace w_seen option_map
       so_family so_type so_broadcast so_timeout so_closed fst snd app
       Z.eqb negb].

Lemma run_reply (E : env) (payload : bytes) (sender : address) :
  setup_ok E -> on_sendto E = None -> on_recvfrom E = inr (payload, sender) ->
  run E =
  let data := payload in
  mkOutcome (if truthy data then fst sender ++ newline else "") "" 0
            (prologue ++
             [EvSendto packet broadcast_address None;
              EvRecvfrom 1024 (inr (data, sender))] ++
             (if truthy data then [EvPrint Stdout (fst sender); EvExit 0] else []) ++
             [EvClose])
            (Some (ready_sock true)).
Proof.
  intros (Hs & Ho & Ht) Hsd Hrv.
  destruct E as [s o t sd rv fr];
    cbn [on_socket on_setsockopt on_settimeout on_sendto on_recvfrom] in *; subst.
  unfold_run.
  destruct payload as [|b data]; reflexivity.
Qed.

Lemma run_setup_failed (E : env) (e : sock_error) :
  setup_error E = Some e ->
  run E = mkOutcome "" (traceback E (exc_of e)) 1 (setup_trace E) (setup_sock E).
Proof.
  destruct E as [[s|] [o|] [t|] sd rv fr]; cbn [setup_error on_socket on_setsockopt on_settimeout];
    intros H; inversion H; subst; clear H;
    destruct e; reflexivity.
Qed.

Lemma run_call_failed (E : env) (e : sock_error) :
  setup_ok E -> try_error E = Some e ->
  run E = mkOutcome "" (report e) 1
            (prologue ++ attempt E ++ report_events e ++ [EvExit 1; EvClose])
            (Some (ready_sock true)).
Proof.
  intros (Hs & Ho & Ht).
  destruct E as [s o t [sd|] [rv|[payload sender]] fr];
    cbn [on_socket on_setsockopt on_settimeout on_sendto on_recvfrom try_error] in *;
    subst; intros H; inversion H; subst; clear H;
    destruct e; reflexivity.
Qed.

Lemma situation_total (E : env) : situation E.
Proof.
  destruct (setup_error E) as [e|] eqn:Hsetup.
  - now apply SetupFailed with e.
  - assert (Hok : setup_ok E).
    { unfold setup_ok, setup_error in *.
      destruct (on_socket E), (on_setsockopt E), (on_settimeout E);
        try discriminate; auto. }
    destruct (try_error E) as [e|] eqn:Htry.
    + now apply CallFailed with e.
    + unfold try_error in Htry.
      destruct (on_sendto E) eqn:Hsd; [discriminate|].
      destruct (on_recvfrom E) as [e|[payload sender]] eqn:Hrv; [discriminate|].
      now apply Replied with payload sender.
Qed.

(** ** What the log tells about the environment *)

Ltac in_cases H :=
  repeat (rewrite in_app_iff in H || cbn [In] in H);
  repeat match type of H with
         | _ \/ _ => destruct H as [H|H]
         | False => contradiction
         end;
  try discriminate H.

Lemma received_inv (E : env) (data : bytes) (sender : address) :
  received E data sender ->
  setup_ok E /\ on_sendto E = None /\
  exists payload, on_recvfrom E = inr (payload, sender) /\ data = payload.
Proof.
  unfold received. intros H.
  destruct (situation_total E) as [e Herr | e Hok Herr | payload from Hok Hsent Hrecv].
  - rewrite (run_setup_failed E e Herr) in H. cbn [trace] in H.
    unfold setup_trace in H.
    destruct (on_socket E), (on_setsockopt E); in_cases H.
  - rewrite (run_call_failed E e Hok Herr) in H. cbn [trace] in H.
    unfold prologue, attempt, report_events in H.
    destruct (on_sendto E), (on_recvfrom E), e; in_cases H.
  - rewrite (run_reply E payload from Hok Hsent Hrecv) in H.
    cbv zeta in H. cbn [trace] in H. unfold prologue in H.
    destruct (truthy payload); in_cases H.
    all: injection H as <- <-; repeat split; try apply Hok; eauto.
Qed.

Lemma timed_out_inv (E : env) (msg : string) :
  timed_out E msg ->
  setup_ok E /\ try_error E = Some (Timeout msg).
Proof.
  unfold timed_out. intros H.
  destruct (situation_total E) as [e Herr | e Hok Herr | payload from Hok Hsent Hrecv].
  - rewrite (run_setup_failed E e Herr) in H. cbn [trace] in H.
    unfold setup_trace in H.
    destruct (on_socket E), (on_setsockopt E); in_cases H.
  - split; [exact Hok|].
    rewrite (run_call_failed E e Hok Herr) in H. cbn [trace] in H.
    unfold prologue, attempt, report_events in H. unfold try_error in *.
    destruct (on_sendto E), (on_recvfrom E), e; in_cases H.
    all: congruence.
  - rewrite (run_reply E payload from Hok Hsent Hrecv) in H.
    cbv zeta in H. cbn [trace] in H. unfold prologue in H.
    destruct (truthy payload); in_cases H.
Qed.

Lemma truthy_nonempty (data : bytes) : data <> [] -> truthy data = true.
Proof. destruct data; [congruence | reflexivity]. Qed.

(** The outcome of a run that received [data] from [sender]. *)
Lemma run_received (E : env) (data : bytes) (sender : address) :
  received E data sender ->
  stdout (run E) = (if truthy data then fst sender ++ newline else "") /\
  stderr (run E) = "" /\
  exit_status (run E) = 0 /\
  sock (run E) = Some (ready_sock true).
Proof.
  intros H. apply received_inv in H.
  destruct H as (Hok & Hsent & payload & Hrecv & ->).
  rewrite (run_reply E payload sender Hok Hsent Hrecv).
  cbv zeta. cbn [stdout stderr exit_status sock]. auto.
Qed.

Lemma received_intro (E : env) (payload : bytes) (sender : address) :
  setup_ok E -> on_sendto E = None -> on_recvfrom E = inr (payload, sender) ->
  received E payload sender.
Proof.
  intros Hok Hsent Hrecv. unfold received.
  rewrite (run_reply E payload sender Hok Hsent Hrecv).
  cbv zeta. cbn [trace]. apply in_or_app. right. right. left. reflexivity.
Qed.

Lemma setup_ok_no_error (E : env) : setup_ok E -> setup_error E = None.
Proof. intros (Hs & Ho & Ht). unfold setup_error. now rewrite Hs, Ho, Ht. Qed.

(** ** Replies *)

(** C1, as amended: when a datagram with a non-empty payload arrives from
    address [A], standard output holds exactly [A] and a line end, and the
    exit status is 0. *)
Theorem reply_with_payload_prints_sender
    (E : env) (data : bytes) (A : string) (port : Z) :
  received E data (A, port) -> data <> [] ->
  stdout (run E) = A ++ newline /\ exit_status (run E) = 0.
Proof.
  intros Hrecv Hdata.
  destruct (run_received E data (A, port) Hrecv) as (Hout & _ & Hexit & _).
  rewrite (truthy_nonempty data Hdata) in Hout. auto.
Qed.

Lemma reply_with_payload_prints_sender_witness :
  stdout (run (env_reply packet mixer)) = "192.168.1.50" ++ newline /\
  exit_status (run (env_reply packet mixer)) = 0.
Proof.
  apply (reply_with_payload_prints_sender (env_reply packet mixer) packet
           "192.168.1.50" 10023).
  - unfold received. vm_compute. auto 10.
  - discriminate.
Defined.

(** C1 as stated fails: a datagram with an empty payload arrives from the
    mixer and its address is not printed. *)
Lemma empty_reply_prints_no_address :
  received (env_reply [] mixer) [] mixer /\
  stdout (run (env_reply [] mixer)) = "" /\
  stdout (run (env_reply [] mixer)) <> fst mixer ++ newline.
Proof.
  split; [|split].
  - unfold received. vm_compute. auto 10.
  - reflexivity.
  - vm_compute. discriminate.
Qed.

(** C2, as amended: two runs that receive datagrams from the same sender
    address, both payloads empty or both non-empty, have the same standard
    output, standard error and exit status; the payload is looked at only
    for being empty. *)
Theorem payload_read_only_for_emptiness
    (E1 E2 : env) (d1 d2 : bytes) (A : string) (p1 p2 : Z) :
  received E1 d1 (A, p1) -> received E2 d2 (A, p2) ->
  truthy d1 = truthy d2 ->
  stdout (run E1) = stdout (run E2) /\
  stderr (run E1) = stderr (run E2) /\
  exit_status (run E1) = exit_status (run E2).
Proof.
  intros H1 H2 Hsame.
  destruct (run_received E1 d1 (A, p1) H1) as (Ho1 & He1 & Hx1 & _).
  destruct (run_received E2 d2 (A, p2) H2) as (Ho2 & He2 & Hx2 & _).
  rewrite Ho1, Ho2, He1, He2, Hx1, Hx2, Hsame. cbn [fst]. auto.
Qed.

Lemma payload_read_only_for_emptiness_witness :
  stdout (run (env_reply packet mixer)) = stdout (run (env_reply [x00] ("192.168.1.50", 40000))) /\
  stderr (run (env_reply packet mixer)) = stderr (run (env_reply [x00] ("192.168.1.50", 40000))) /\
  exit_status (run (env_reply packet mixer)) =
  exit_status (run (env_reply [x00] ("192.168.1.50", 40000))).
Proof.
  apply (payload_read_only_for_emptiness
           (env_reply packet mixer) (env_reply [x00] ("192.168.1.50", 40000))
           packet [x00] "192.168.1.50" 10023 40000).
  - unfold received. vm_compute. auto 10.
  - unfold received. vm_compute. auto 10.
  - reflexivity.
Defined.

(** C2 as stated fails: the same sender, one payload empty and one not, and
    the two standard outputs differ. *)
Lemma payload_emptiness_changes_stdout :
  received (env_reply [] mixer) [] mixer /\
  received (env_reply [x2f] mixer) [x2f] mixer /\
  stdout (run (env_reply [] mixer)) <> stdout (run (env_reply [x2f] mixer)).
Proof.
  split; [|split].
  - unfold received. vm_compute. auto 10.
  - unfold received. vm_compute. auto 10.
  - vm_compute. discriminate.
Qed.

(** C9: when the datagram received has an empty payload, nothing is written
    to standard output or standard error, the socket is closed, and the exit
    status is 0. *)
Theorem empty_reply_exits_zero_in_silence (E : env) (sender : address) :
  received E [] sender ->
  stdout (run E) = "" /\ stderr (run E) = "" /\
  closed (run E) = true /\ In EvClose (trace (run E)) /\
  exit_status (run E) = 0.
Proof.
  intros Hrecv.
  destruct (run_received E [] sender Hrecv) as (Hout & Herr & Hexit & Hsock).
  repeat split; try assumption.
  - unfold closed. now rewrite Hsock.
  - apply received_inv in Hrecv.
    destruct Hrecv as (Hok & Hsent & payload & Hfrom & _).
    rewrite (run_reply E payload sender Hok Hsent Hfrom).
    cbv zeta. cbn [trace]. rewrite !in_app_iff. cbn [In]. tauto.
Qed.

Lemma empty_reply_exits_zero_in_silence_witness :
  stdout (run (env_reply [] mixer)) = "" /\
  stderr (run (env_reply [] mixer)) = "" /\
  closed (run (env_reply [] mixer)) = true /\
  In EvClose (trace (run (env_reply [] mixer))) /\
  exit_status (run (env_reply [] mixer)) = 0.
Proof.
  apply (empty_reply_exits_zero_in_silence (env_reply [] mixer) mixer).
  unfold received. vm_compute. auto 10.
Defined.

(** ** Exit status *)




(** ** Timeout *)

(** C6: when the wait for a reply ends with the timeout, which was set to
    2 seconds, nothing is written to standard output or standard error and
    the exit status is 1. *)
Theorem timeout_exits_one_in_silence (E : env) (msg : string) :
  timed_out E msg ->
  stdout (run E) = "" /\ stderr (run E) = "" /\ exit_status (run E) = 1 /\
  option_map so_timeout (sock (run E)) = Some (Some 2000).
Proof.
  intros H. apply timed_out_inv in H. destruct H as (Hok & Herr).
  rewrite (run_call_failed E (Timeout msg) Hok Herr).
  repeat split.
Qed.

Lemma timeout_exits_one_in_silence_witness :
  stdout (run env_silence) = "" /\ stderr (run env_silence) = "" /\
  exit_status (run env_silence) = 1 /\
  option_map so_timeout (sock (run env_silence)) = Some (Some 2000).
Proof.
  apply (timeout_exits_one_in_silence env_silence "timed out").
  unfold timed_out. vm_compute. auto 10.
Defined.

(** ** The success exit and the handlers *)

(** Neither [except] clause of the program matches a [SystemExit]. *)
Lemma system_exit_not_caught (c : Z) (h1 h2 : pyexc -> M unit) (w : world) :
  dispatch [(is_socket_timeout, h1); (is_Exception, h2)] (SystemExit c) w =
  (Raise (SystemExit c), w).
Proof. reflexivity. Qed.

(** So a [SystemExit] raised in the body leaves the [try] statement after the
    [finally] block, whatever the handlers are. *)
Lemma system_exit_leaves_try
    (body fin : M unit) (h1 h2 : pyexc -> M unit) (c : Z) (w w1 w2 : world) :
  body w = (Raise (SystemExit c), w1) -> fin w1 = (Ret tt, w2) ->
  try_except_finally body [(is_socket_timeout, h1); (is_Exception, h2)] fin w =
  (Raise (SystemExit c), w2).
Proof.
  intros Hbody Hfin. unfold try_except_finally.
  rewrite Hbody, system_exit_not_caught, Hfin. reflexivity.
Qed.

(** C10: when the run reaches [sys.exit(0)], no handler takes the exit: both
    class tests reject it, nothing is printed to standard error, and the exit
    status is 0. *)
Theorem success_exit_passes_the_handlers (E : env) :
  In (EvExit 0) (trace (run E)) ->
  is_socket_timeout (SystemExit 0) = false /\
  is_Exception (SystemExit 0) = false /\
  stderr (run E) = "" /\
  existsb (fun ev => match ev with EvPrint Stderr _ => true | _ => false end)
          (trace (run E)) = false /\
  exit_status (run E) = 0.
Proof.
  intros H.
  destruct (situation_total E) as [e Herr | e Hok Herr | payload from Hok Hsent Hrecv].
  - rewrite (run_setup_failed E e Herr) in H. cbn [trace] in H.
    unfold setup_trace in H.
    destruct (on_socket E), (on_setsockopt E); in_cases H.
  - rewrite (run_call_failed E e Hok Herr) in H. cbn [trace] in H.
    unfold prologue, attempt, report_events in H.
    destruct (on_sendto E), (on_recvfrom E), e; in_cases H.
  - rewrite (run_reply E payload from Hok Hsent Hrecv) in *.
    cbv zeta in *. cbn [trace stderr exit_status] in *.
    destruct (truthy payload); repeat split.
Qed.

Lemma success_exit_passes_the_handlers_witness :
  is_socket_timeout (SystemExit 0) = false /\
  is_Exception (SystemExit 0) = false /\
  stderr (run (env_reply packet mixer)) = "" /\
  existsb (fun ev => match ev with EvPrint Stderr _ => true | _ => false end)
          (trace (run (env_reply packet mixer))) = false /\
  exit_status (run (env_reply packet mixer)) = 0.
Proof.
  apply (success_exit_passes_the_handlers (env_reply packet mixer)).
  vm_compute. auto 10.
Defined.

(** ** The probe *)

Lemma sends_app (t1 t2 : list event) : sends (t1 ++ t2) = (sends t1 ++ sends t2)%list.
Proof.
  induction t1 as [|ev t1 IH]; [reflexivity|].
  destruct ev; cbn [app sends]; rewrite IH; reflexivity.
Qed.

Lemma sends_report_events (e : sock_error) : sends (report_events e) = [].
Proof. now destruct e. Qed.

Lemma sends_attempt (E : env) : sends (attempt E) = [(packet, broadcast_address)].
Proof. unfold attempt. now destruct (on_sendto E), (on_recvfrom E). Qed.

Lemma sends_setup_trace (E : env) : sends (setup_trace E) = [].
Proof. unfold setup_trace. now destruct (on_socket E), (on_setsockopt E). Qed.

(** C7, as amended: a run whose endpoint was opened and configured calls
    [sendto] exactly once, with the 12 fixed bytes and the destination
    255.255.255.255 port 10023; a run whose endpoint could not be set up
    sends nothing. *)
Theorem probe_is_the_fixed_packet (E : env) :
  (setup_ok E -> sends (trace (run E)) = [(packet, broadcast_address)]) /\
  (forall e, setup_error E = Some e -> sends (trace (run E)) = []) /\
  packet = [x2f; x69; x6e; x66; x6f; x00; x00; x00; x2c; x00; x00; x00] /\
  length packet = 12%nat /\
  broadcast_address = ("255.255.255.255", 10023).
Proof.
  split; [|split; [|repeat split]].
  - intros Hok.
    destruct (situation_total E) as [e Herr | e _ Herr | payload from _ Hsent Hrecv].
    + rewrite (setup_ok_no_error E Hok) in Herr. discriminate.
    + rewrite (run_call_failed E e Hok Herr). cbn [trace].
      rewrite !sends_app, sends_attempt, sends_report_events. reflexivity.
    + rewrite (run_reply E payload from Hok Hsent Hrecv). cbv zeta. cbn [trace].
      rewrite !sends_app.
      now destruct (truthy payload).
  - intros e Herr. rewrite (run_setup_failed E e Herr). cbn [trace].
    apply sends_setup_trace.
Qed.

(** C7 as stated fails: when the socket cannot be created, no datagram is
    sent. *)
Lemma no_socket_no_probe :
  sends (trace (run env_no_socket)) = [] /\
  length (sends (trace (run env_no_socket))) <> 1%nat.
Proof. split; [reflexivity | discriminate]. Qed.

(** ** Broadcast before send *)

(** A send found in [pfx ++ rest], where [pfx] holds no send, lies in [rest]. *)
Lemma send_after_prefix (pfx rest pre post : list event) (ev : event) :
  is_send ev = true ->
  forallb (fun e => negb (is_send e)) pfx = true ->
  (pfx ++ rest = pre ++ ev :: post)%list ->
  exists mid, pre = (pfx ++ mid)%list.
Proof.
  intros Hev. revert pre.
  induction pfx as [|a pfx IH]; intros pre Hpfx Heq.
  - now exists pre.
  - cbn [forallb] in Hpfx. apply andb_prop in Hpfx. destruct Hpfx as [Ha Hpfx].
    destruct pre as [|b pre]; cbn [app] in Heq; injection Heq as Hhead Htail.
    + subst a. rewrite Hev in Ha. discriminate.
    + subst b. destruct (IH pre Hpfx Htail) as [mid ->]. now exists mid.
Qed.

(** The ways through the program, by the first call that raises. *)
Ltac env_paths E tac :=
  let s := fresh "s" in
  let o := fresh "o" in
  let t := fresh "t" in
  let sd := fresh "sd" in
  let rv := fresh "rv" in
  let fr := fresh "fr" in
  destruct E as [s o t sd rv fr];
  destruct s as [[?|? ?]|]; [tac | tac |];
  destruct o as [[?|? ?]|]; [tac | tac |];
  destruct t as [[?|? ?]|]; [tac | tac |];
  destruct sd as [[?|? ?]|]; [tac | tac |];
  destruct rv as [[?|? ?]|[[|? ?] ?]]; tac.

(** The log and the history of a run list the same calls. *)
Lemma history_events (E : env) : map fst (history E) = trace (run E).
Proof. env_paths E ltac:(reflexivity). Qed.

(** Every [sendto] and [recvfrom] of a run is made on the socket as the three
    set-up calls left it: broadcast on, timeout 2 seconds, not closed. *)
Lemma traffic_ready_run (E : env) : forallb traffic_ready (history E) = true.
Proof. env_paths E ltac:(reflexivity). Qed.

Lemma is_ready_inv (s : option socket_obj) :
  is_ready s = true ->
  exists so, s = Some so /\ so_broadcast so = true /\
             so_closed so = false /\ so_timeout so = Some 2000.
Proof.
  destruct s as [so|]; [|discriminate]. cbn [is_ready]. intros H.
  apply andb_prop in H. destruct H as [H Htime].
  apply andb_prop in H. destruct H as [Hbc Hopen].
  exists so. repeat split.
  - exact Hbc.
  - now destruct (so_closed so).
  - destruct (so_timeout so) as [ms|]; [|discriminate].
    apply Z.eqb_eq in Htime. now subst ms.
Qed.

(** The socket object on which the call at a given place of the log was
    made. *)
Lemma socket_at_traffic
    (E : env) (pre post : list event) (ev : event) :
  is_traffic ev = true ->
  trace (run E) = (pre ++ ev :: post)%list ->
  exists so,
    nth_error (history E) (length pre) = Some (ev, Some so) /\
    so_broadcast so = true /\ so_closed so = false /\
    so_timeout so = Some 2000.
Proof.
  intros Hev Heq.
  assert (Hnth : nth_error (map fst (history E)) (length pre) = Some ev).
  { rewrite history_events, Heq, nth_error_app2 by apply Nat.le_refl.
    now rewrite Nat.sub_diag. }
  rewrite nth_error_map in Hnth.
  destruct (nth_error (history E) (length pre)) as [[ev' s]|] eqn:Hat;
    [|discriminate Hnth].
  cbn in Hnth. injection Hnth as ->.
  pose proof (traffic_ready_run E) as Hall.
  rewrite forallb_forall in Hall.
  specialize (Hall (ev, s) (nth_error_In _ _ Hat)).
  unfold traffic_ready in Hall. cbn [fst snd] in Hall. rewrite Hev in Hall.
  destruct (is_ready_inv s Hall) as (so & -> & Hbc & Hopen & Htime).
  now exists so.
Qed.

(** C8: every [sendto] of a run comes after the successful call
    [setsockopt(SOL_SOCKET, SO_BROADCAST, 1)], and the socket it is made on
    has the broadcast option on (and is not closed). *)
Theorem broadcast_enabled_before_send
    (E : env) (pre post : list event) (p : bytes) (d : address)
    (r : option sock_error) :
  trace (run E) = (pre ++ EvSendto p d r :: post)%list ->
  In broadcast_enabled pre /\
  exists so,
    nth_error (history E) (length pre) = Some (EvSendto p d r, Some so) /\
    so_broadcast so = true /\ so_closed so = false.
Proof.
  intros Heq. split.
  - assert (Hin : In (EvSendto p d r) (trace (run E)))
      by (rewrite Heq; apply in_elt).
    assert (Hpro : forall rest,
               (prologue ++ rest = pre ++ EvSendto p d r :: post)%list ->
               In broadcast_enabled pre).
    { intros rest Hrest.
      destruct (send_after_prefix prologue rest pre post (EvSendto p d r))
        as [mid ->]; [reflexivity | reflexivity | exact Hrest |].
      apply in_or_app. left. cbn. auto. }
    destruct (situation_total E) as [e Herr | e Hok Herr | payload from Hok Hsent Hrecv].
    + rewrite (run_setup_failed E e Herr) in Hin. cbn [trace] in Hin.
      unfold setup_trace in Hin.
      destruct (on_socket E), (on_setsockopt E); in_cases Hin.
    + rewrite (run_call_failed E e Hok Herr) in Heq. cbn [trace] in Heq.
      now apply Hpro in Heq.
    + rewrite (run_reply E payload from Hok Hsent Hrecv) in Heq.
      cbv zeta in Heq. cbn [trace] in Heq.
      now apply Hpro in Heq.
  - destruct (socket_at_traffic E pre post (EvSendto p d r) eq_refl Heq)
      as (so & Hat & Hbc & Hopen & _).
    now exists so.
Qed.

Lemma broadcast_enabled_before_send_witness :
  In broadcast_enabled prologue /\
  exists so,
    nth_error (history (env_reply packet mixer)) (length prologue) =
      Some (EvSendto packet broadcast_address None, Some so) /\
    so_broadcast so = true /\ so_closed so = false.
Proof.
  apply (broadcast_enabled_before_send (env_reply packet mixer) prologue
           [EvRecvfrom 1024 (inr (packet, mixer));
            EvPrint Stdout "192.168.1.50"; EvExit 0; EvClose]
           packet broadcast_address None).
  reflexivity.
Defined.

(** ** Errors *)

Lemma count_lines_app (s1 s2 : string) :
  count_lines (s1 ++ s2) = (count_lines s1 + count_lines s2)%nat.
Proof.
  induction s1 as [|c s1 IH]; [reflexivity|].
  cbn [append count_lines]. rewrite IH. now destruct (Ascii.eqb c "010").
Qed.

(** A traceback has the heading line and the line of the exception, at
    least. *)
Lemma traceback_lines (E : env) (e : pyexc) :
  (2 <= count_lines (traceback E e))%nat.
Proof.
  unfold traceback. rewrite !count_lines_app.
  change (count_lines "Traceback (most recent call last):") with 0%nat.
  change (count_lines newline) with 1%nat. lia.
Qed.

(** X1: an error of [sendto] or [recvfrom] other than a timeout is reported
    by the handler on one line of standard error, [An error occurred: ] and
    the message; standard output stays empty, the socket is closed, and the
    exit status is 1. *)
Lemma call_failure_reported (E : env) (name msg : string) :
  setup_ok E -> try_error E = Some (Failure name msg) ->
  stdout (run E) = "" /\
  stderr (run E) = "An error occurred: " ++ msg ++ newline /\
  count_lines (stderr (run E)) = S (count_lines msg) /\
  closed (run E) = true /\
  exit_status (run E) = 1.
Proof.
  intros Hok Herr. rewrite (run_call_failed E _ Hok Herr).
  cbn [stdout stderr exit_status closed sock report ready_sock so_closed].
  repeat split.
  change ("An error occurred: " ++ msg ++ newline)
    with (("An error occurred: " ++ msg) ++ newline).
  rewrite count_lines_app.
  change (count_lines newline) with 1%nat.
  assert (H : count_lines ("An error occurred: " ++ msg) = count_lines msg)
    by reflexivity.
  rewrite H. lia.
Qed.

(** X2: once the endpoint is opened and configured, every way out of the run
    goes through [close]. *)
Lemma closed_when_configured (E : env) : setup_ok E -> closed (run E) = true.
Proof.
  intros Hok.
  destruct (situation_total E) as [e Herr | e _ Herr | payload from _ Hsent Hrecv].
  - rewrite (setup_ok_no_error E Hok) in Herr. discriminate.
  - now rewrite (run_call_failed E e Hok Herr).
  - now rewrite (run_reply E payload from Hok Hsent Hrecv).
Qed.

(** An error while opening or configuring the endpoint is raised before the
    [try] statement: no handler and no [finally] block runs. *)
Lemma setup_failure_uncaught (E : env) (e : sock_error) :
  setup_error E = Some e ->
  stdout (run E) = "" /\
  stderr (run E) = traceback E (exc_of e) /\
  closed (run E) = false /\
  exit_status (run E) = 1.
Proof.
  intros Herr. rewrite (run_setup_failed E e Herr).
  cbn [stdout stderr exit_status closed sock]. repeat split.
  unfold setup_sock. now destruct (on_socket E), (on_setsockopt E).
Qed.

(** C4, at the failing input: [setsockopt] refuses the broadcast option.
    Standard output stays empty and the exit status is 1, but standard error
    holds a traceback of at least two lines, not one line. *)
Theorem broadcast_denied_prints_traceback (frames : string) :
  stdout (run (env_broadcast_denied frames)) = "" /\
  exit_status (run (env_broadcast_denied frames)) = 1 /\
  stderr (run (env_broadcast_denied frames)) =
    "Traceback (most recent call last):" ++ newline ++ frames ++
    "PermissionError: [Errno 1] Operation not permitted" ++ newline /\
  (2 <= count_lines (stderr (run (env_broadcast_denied frames))))%nat.
Proof.
  destruct (setup_failure_uncaught (env_broadcast_denied frames)
              (Failure "PermissionError" "[Errno 1] Operation not permitted")
              eq_refl) as (Hout & Herr & _ & Hexit).
  repeat split; try assumption.
  rewrite Herr. apply traceback_lines.
Qed.

(** C5, at the failing input: [setsockopt] refuses the broadcast option.
    The socket was created, and the run ends without a call of [close]. *)
Theorem broadcast_denied_leaves_socket_open (frames : string) :
  sock (run (env_broadcast_denied frames)) =
    Some (mkSock AF_INET SOCK_DGRAM false None false) /\
  closed (run (env_broadcast_denied frames)) = false /\
  trace (run (env_broadcast_denied frames)) =
    [ EvSocket AF_INET SOCK_DGRAM None;
      EvSetsockopt SOL_SOCKET SO_BROADCAST 1
        (Some (Failure "PermissionError" "[Errno 1] Operation not permitted")) ].
Proof. repeat split. Qed.

Lemma call_failure_reported_witness :
  stdout (run env_unreachable) = "" /\
  stderr (run env_unreachable) =
    "An error occurred: " ++ "[Errno 101] Network is unreachable" ++ newline /\
  count_lines (stderr (run env_unreachable)) =
    S (count_lines "[Errno 101] Network is unreachable") /\
  closed (run env_unreachable) = true /\
  exit_status (run env_unreachable) = 1.
Proof.
  apply (call_failure_reported env_unreachable "OSError"
           "[Errno 101] Network is unreachable").
  - repeat split.
  - reflexivity.
Defined.

Lemma closed_when_configured_witness : closed (run env_silence) = true.
Proof. apply (closed_when_configured env_silence). repeat split. Defined.

(** ** Runs on concrete environments *)

Example run_mixer_replies :
  run (env_reply packet mixer) =
  mkOutcome ("192.168.1.50" ++ newline) "" 0
    [ EvSocket AF_INET SOCK_DGRAM None;
      EvSetsockopt SOL_SOCKET SO_BROADCAST 1 None;
      EvSettimeout 2000 None;
      EvSendto packet broadcast_address None;
      EvRecvfrom 1024 (inr (packet, mixer));
      EvPrint Stdout "192.168.1.50";
      EvExit 0;
      EvClose ]
    (Some (ready_sock true)).
Proof. reflexivity. Qed.

Example run_nobody_replies :
  run env_silence =
  mkOutcome "" "" 1
    [ EvSocket AF_INET SOCK_DGRAM None;
      EvSetsockopt SOL_SOCKET SO_BROADCAST 1 None;
      EvSettimeout 2000 None;
      EvSendto packet broadcast_address None;
      EvRecvfrom 1024 (inl (Timeout "timed out"));
      EvExit 1;
      EvClose ]
    (Some (ready_sock true)).
Proof. reflexivity. Qed.

Example run_no_socket :
  run env_no_socket =
  mkOutcome ""
    ("Traceback (most recent call last):" ++ newline ++
     "OSError: [Errno 24] Too many open files" ++ newline)
    1
    [ EvSocket AF_INET SOCK_DGRAM
        (Some (Failure "OSError" "[Errno 24] Too many open files")) ]
    None.
Proof. reflexivity. Qed.

(** ** A timeout while sending *)

(** X3: the [except socket.timeout] clause covers the whole [try] block, so a
    timeout raised by [sendto] ends the run like a missing reply: nothing on
    either stream, the socket closed, exit status 1; and [recvfrom] is never
    called. *)
Theorem send_timeout_is_silent (E : env) (msg : string) :
  setup_ok E -> on_sendto E = Some (Timeout msg) ->
  stdout (run E) = "" /\ stderr (run E) = "" /\
  exit_status (run E) = 1 /\ closed (run E) = true /\
  count_events is_recv (trace (run E)) = 0%nat.
Proof.
  intros Hok Hsend.
  assert (Herr : try_error E = Some (Timeout msg))
    by (unfold try_error; now rewrite Hsend).
  rewrite (run_call_failed E (Timeout msg) Hok Herr).
  cbn [stdout stderr exit_status closed sock trace report ready_sock so_closed].
  repeat split.
  unfold attempt. rewrite Hsend. reflexivity.
Qed.

Lemma send_timeout_is_silent_witness :
  stdout (run env_send_stuck) = "" /\ stderr (run env_send_stuck) = "" /\
  exit_status (run env_send_stuck) = 1 /\ closed (run env_send_stuck) = true /\
  count_events is_recv (trace (run env_send_stuck)) = 0%nat.
Proof.
  apply (send_timeout_is_silent env_send_stuck "timed out").
  - repeat split.
  - reflexivity.
Defined.

(** ** Errors before the [try] statement *)

(** X4: whichever of [socket.socket], [setsockopt] and [settimeout] raises,
    and whatever it raises, the run ends there: the interpreter's traceback
    (two lines or more) on standard error, nothing on standard output, exit
    status 1, no datagram sent, no [sys.exit] and no [close] called. *)
Theorem setup_failure_ends_the_run (E : env) (e : sock_error) :
  setup_error E = Some e ->
  stdout (run E) = "" /\
  stderr (run E) = traceback E (exc_of e) /\
  (2 <= count_lines (stderr (run E)))%nat /\
  exit_status (run E) = 1 /\
  count_events is_traffic (trace (run E)) = 0%nat /\
  existsb is_close (trace (run E)) = false /\
  existsb (fun ev => match ev with EvExit _ => true | _ => false end)
          (trace (run E)) = false.
Proof.
  intros Herr. rewrite (run_setup_failed E e Herr).
  cbn [stdout stderr exit_status trace].
  repeat split; try apply traceback_lines;
    unfold setup_trace; now destruct (on_socket E), (on_setsockopt E).
Qed.

Lemma setup_failure_ends_the_run_witness :
  stdout (run env_timeout_refused) = "" /\
  stderr (run env_timeout_refused) =
    traceback env_timeout_refused (OSError "OSError" "[Errno 9] Bad file descriptor") /\
  (2 <= count_lines (stderr (run env_timeout_refused)))%nat /\
  exit_status (run env_timeout_refused) = 1 /\
  count_events is_traffic (trace (run env_timeout_refused)) = 0%nat /\
  existsb is_close (trace (run env_timeout_refused)) = false /\
  existsb (fun ev => match ev with EvExit _ => true | _ => false end)
          (trace (run env_timeout_refused)) = false.
Proof.
  apply (setup_failure_ends_the_run env_timeout_refused
           (Failure "OSError" "[Errno 9] Bad file descriptor")).
  reflexivity.
Defined.

(** ** The two streams and the exit status *)

(** X5: a run never writes to both streams.  Standard output is empty unless
    the exit status is 0, and then it is the address of the sender of the
    datagram received; standard error is empty unless the exit status is 1. *)
Theorem streams_follow_exit_status (E : env) :
  (stdout (run E) = "" \/
   exit_status (run E) = 0 /\ stderr (run E) = "" /\
   exists data sender,
     received E data sender /\ stdout (run E) = fst sender ++ newline) /\
  (stderr (run E) = "" \/
   exit_status (run E) = 1 /\ stdout (run E) = "") /\
  (exit_status (run E) = 1 -> stdout (run E) = "").
Proof.
  destruct (situation_total E) as [e Herr | e Hok Herr | payload from Hok Hsent Hrecv].
  - rewrite (run_setup_failed E e Herr). cbn [stdout stderr exit_status]. auto.
  - rewrite (run_call_failed E e Hok Herr). cbn [stdout stderr exit_status]. auto.
  - pose proof (received_intro E payload from Hok Hsent Hrecv) as Hin.
    destruct (run_received E _ from Hin) as (Hout & Herr & Hexit & _).
    rewrite Hout, Herr, Hexit.
    destruct (truthy payload).
    + split; [right | split; [left; reflexivity | discriminate]].
      repeat split. now exists payload, from.
    + split; [left; reflexivity | split; [left; reflexivity | discriminate]].
Qed.

(** ** Order of the calls *)

(** An event satisfying [p] found in [pfx ++ rest], where nothing in [pfx]
    satisfies [p], lies in [rest]. *)
Lemma event_after_prefix
    (p : event -> bool) (pfx rest pre post : list event) (ev : event) :
  p ev = true ->
  forallb (fun e => negb (p e)) pfx = true ->
  (pfx ++ rest = pre ++ ev :: post)%list ->
  exists mid, pre = (pfx ++ mid)%list.
Proof.
  intros Hev. revert pre.
  induction pfx as [|a pfx IH]; intros pre Hpfx Heq.
  - now exists pre.
  - cbn [forallb] in Hpfx. apply andb_prop in Hpfx. destruct Hpfx as [Ha Hpfx].
    destruct pre as [|b pre]; cbn [app] in Heq; injection Heq as Hhead Htail.
    + subst a. rewrite Hev in Ha. discriminate.
    + subst b. destruct (IH pre Hpfx Htail) as [mid ->]. now exists mid.
Qed.

(** X7: the wait is always bounded: every [sendto] and every [recvfrom] of a
    run comes after the successful [settimeout] of 2 seconds, and the socket
    it is made on has that timeout set. *)
Theorem timeout_set_before_traffic
    (E : env) (pre post : list event) (ev : event) :
  is_traffic ev = true ->
  trace (run E) = (pre ++ ev :: post)%list ->
  In timeout_set pre /\
  exists so,
    nth_error (history E) (length pre) = Some (ev, Some so) /\
    so_timeout so = Some 2000.
Proof.
  intros Hev Heq. split.
  - assert (Hin : In ev (trace (run E))) by (rewrite Heq; apply in_elt).
    assert (Hpro : forall rest, (prologue ++ rest = pre ++ ev :: post)%list ->
                                In timeout_set pre).
    { intros rest Hrest.
      destruct (event_after_prefix is_traffic prologue rest pre post ev)
        as [mid ->]; [exact Hev | reflexivity | exact Hrest |].
      apply in_or_app. left. cbn. auto. }
    destruct (situation_total E) as [e Herr | e Hok Herr | payload from Hok Hsent Hrecv].
    + rewrite (run_setup_failed E e Herr) in Hin. cbn [trace] in Hin.
      unfold setup_trace in Hin.
      destruct (on_socket E), (on_setsockopt E); in_cases Hin;
        subst ev; discriminate Hev.
    + rewrite (run_call_failed E e Hok Herr) in Heq. cbn [trace] in Heq.
      now apply Hpro in Heq.
    + rewrite (run_reply E payload from Hok Hsent Hrecv) in Heq.
      cbv zeta in Heq. cbn [trace] in Heq.
      now apply Hpro in Heq.
  - destruct (socket_at_traffic E pre post ev Hev Heq)
      as (so & Hat & _ & _ & Htime).
    now exists so.
Qed.

Lemma timeout_set_before_traffic_witness :
  In timeout_set (prologue ++ [EvSendto packet broadcast_address None]) /\
  exists so,
    nth_error (history env_silence)
      (length (prologue ++ [EvSendto packet broadcast_address None])) =
      Some (EvRecvfrom 1024 (inl (Timeout "timed out")), Some so) /\
    so_timeout so = Some 2000.
Proof.
  apply (timeout_set_before_traffic env_silence
           (prologue ++ [EvSendto packet broadcast_address None])
           [EvExit 1; EvClose]
           (EvRecvfrom 1024 (inl (Timeout "timed out")))).
  - reflexivity.
  - reflexivity.
Defined.

Lemma close_only_last_sound (t : list event) :
  close_only_last t = true ->
  forall pre post, t = (pre ++ EvClose :: post)%list -> post = [].
Proof.
  induction t as [|a t IH]; intros Hck pre post Heq.
  - destruct pre; discriminate Heq.
  - destruct pre as [|b pre]; cbn [app] in Heq; injection Heq as Hhead Htail.
    + subst a t. cbn [close_only_last] in Hck. now destruct post.
    + subst b. destruct a; cbn [close_only_last] in Hck;
        try (now apply (IH Hck pre post)).
      subst t. destruct pre; discriminate Hck.
Qed.

Lemma close_only_last_run (E : env) : close_only_last (trace (run E)) = true.
Proof.
  destruct (situation_total E) as [e Herr | e Hok Herr | payload from Hok Hsent Hrecv].
  - rewrite (run_setup_failed E e Herr). cbn [trace]. unfold setup_trace.
    now destruct (on_socket E), (on_setsockopt E).
  - rewrite (run_call_failed E e Hok Herr). cbn [trace]. unfold attempt.
    now destruct (on_sendto E), (on_recvfrom E), e.
  - rewrite (run_reply E payload from Hok Hsent Hrecv). cbv zeta. cbn [trace].
    now destruct (truthy payload).
Qed.

(** X8: the socket is not used after [close]: when the log of a run has a
    [close], it is the last event, and there is no other [close] before it. *)
Theorem nothing_after_close (E : env) (pre post : list event) :
  trace (run E) = (pre ++ EvClose :: post)%list ->
  post = [] /\ existsb is_close pre = false.
Proof.
  intros Heq. pose proof (close_only_last_run E) as Hck.
  split.
  - exact (close_only_last_sound _ Hck pre post Heq).
  - destruct (existsb is_close pre) eqn:Hex; [|reflexivity].
    apply existsb_exists in Hex. destruct Hex as (ev & Hin & Hev).
    destruct ev; try discriminate Hev.
    apply in_split in Hin. destruct Hin as (p1 & p2 & ->).
    rewrite <- app_assoc in Heq. cbn [app] in Heq.
    pose proof (close_only_last_sound _ Hck p1 _ Heq) as Hnil.
    destruct p2; discriminate Hnil.
Qed.

Lemma nothing_after_close_witness :
  @nil event = [] /\
  existsb is_close
    (prologue ++ [EvSendto packet broadcast_address None;
                  EvRecvfrom 1024 (inl (Timeout "timed out")); EvExit 1]) = false.
Proof.
  apply (nothing_after_close env_silence
           (prologue ++ [EvSendto packet broadcast_address None;
                         EvRecvfrom 1024 (inl (Timeout "timed out")); EvExit 1])
           []).
  reflexivity.
Defined.

(** X9: nothing is tried twice.  A run calls [sendto], [recvfrom], [print]
    and [close] at most once each, so only the first datagram is read; and
    when [sendto] raises, [recvfrom] is not called at all. *)
Theorem no_retry (E : env) :
  (count_events is_send (trace (run E)) <= 1)%nat /\
  (count_events is_recv (trace (run E)) <= 1)%nat /\
  (count_events is_print (trace (run E)) <= 1)%nat /\
  (count_events is_close (trace (run E)) <= 1)%nat /\
  (forall e, setup_ok E -> on_sendto E = Some e ->
             count_events is_recv (trace (run E)) = 0%nat).
Proof.
  destruct (situation_total E) as [e Herr | e Hok Herr | payload from Hok Hsent Hrecv].
  - rewrite (run_setup_failed E e Herr). cbn [trace]. unfold setup_trace.
    repeat split.
    1-4: destruct (on_socket E), (on_setsockopt E); cbn; lia.
    intros e' Hok _. rewrite (setup_ok_no_error E Hok) in Herr. discriminate.
  - rewrite (run_call_failed E e Hok Herr). cbn [trace]. unfold attempt.
    repeat split.
    1-4: destruct (on_sendto E), (on_recvfrom E), e; cbn; lia.
    intros e' _ ->. now destruct e.
  - rewrite (run_reply E payload from Hok Hsent Hrecv). cbv zeta. cbn [trace].
    repeat split.
    1-4: destruct (truthy payload); cbn; lia.
    intros e' _ Hsend. rewrite Hsent in Hsend. discriminate.
Qed.
